(** * Generation session controller of [frontend/src/App.tsx]

    A shallow embedding of the React component [App]: the hooks of the
    component become the fields of one [Session] record, every [setX] call
    becomes a setter on that record, and every handler ([reset], [stop],
    [doGenerateCode], [doGenerateInstruction], [doCreate], [doUpdate],
    [instructionGenerate]) becomes a function [Session -> Session] that
    applies the setters in the order in which the handler calls them.

    The callbacks that the handlers pass to the channel are closures over
    the setters; they are kept here as first-order data (an [Endpoint] tag
    on the socket selects the callback set), because a socket that stored
    functions on [Session] could not be a field of [Session]. *)

From Stdlib Require Import ZArith.
From stdpp Require Import gmap strings list fin_maps.

Local Open Scope string_scope.
Local Open Scope Z_scope.
Local Open Scope list_scope.

(** ** Values and objects *)

(** The four members of the enum [AppState] that the component uses. *)
Inductive AppState : Set :=
| INITIAL
| CODING
| CODE_READY
| INSTRUCTION_GENERATING.

#[global] Instance AppState_eq_dec : EqDecision AppState.
Proof. solve_decision. Defined.

(** The JavaScript values that occur in request parameters. *)
Inductive JsVal : Set :=
| VUndefined
| VNull
| VBool (b : bool)
| VStr (s : string)
| VArr (xs : list string).

#[global] Instance JsVal_eq_dec : EqDecision JsVal.
Proof. solve_decision. Defined.

(** A JavaScript object literal used as a bag of named parameters. *)
Abbreviation JsObj := (gmap string JsVal).

(** [{ ...a, ...b }]: the keys of [b] win over those of [a]. *)
Definition spread (a b : JsObj) : JsObj := b ∪ a.

(** [xs[0]] on a JavaScript array: [undefined] when the array is empty. *)
Definition index0 (xs : list string) : JsVal :=
  match xs with
  | [] => VUndefined
  | x :: _ => VStr x
  end.

(** [string | null] *)
Definition nullable (o : option string) : JsVal :=
  match o with
  | None => VNull
  | Some x => VStr x
  end.

(** The settings object held by [usePersistedState]; its shape is the one
    of the default value in the component.  [EditorTheme] is an enum of
    [./types]; a member is carried by its name. *)
Record Settings : Set := mkSettings {
  openAiApiKey : option string;
  screenshotOneApiKey : option string;
  isImageGenerationEnabled : bool;
  editorTheme : string;
  isTermOfServiceAccepted : bool
}.

Definition COBALT : string := "COBALT".

Definition defaultSettings : Settings :=
  {| openAiApiKey := None;
     screenshotOneApiKey := None;
     isImageGenerationEnabled := true;
     editorTheme := COBALT;
     isTermOfServiceAccepted := false |}.

(** The settings as the object that is spread into every request. *)
Definition settingsObj (st : Settings) : JsObj :=
  <["openAiApiKey" := nullable (openAiApiKey st)]>
  (<["screenshotOneApiKey" := nullable (screenshotOneApiKey st)]>
  (<["isImageGenerationEnabled" := VBool (isImageGenerationEnabled st)]>
  (<["editorTheme" := VStr (editorTheme st)]>
  (<["isTermOfServiceAccepted" := VBool (isTermOfServiceAccepted st)]> ∅)))).

(** ** The socket behind [wsRef] *)

Inductive ReadyState : Set := CONNECTING | OPEN | CLOSING | CLOSED.

#[global] Instance ReadyState_eq_dec : EqDecision ReadyState.
Proof. solve_decision. Defined.

(** Which of the two channel functions opened the socket, hence which set
    of callbacks listens on it. *)
Inductive Endpoint : Set := GenerateCode | GenerateInstruction.

#[global] Instance Endpoint_eq_dec : EqDecision Endpoint.
Proof. solve_decision. Defined.

Record WebSocket : Set := mkWebSocket {
  endpoint : Endpoint;
  readyState : ReadyState;
  closeCode : option Z
}.

(** [ws.close(code)]: starts the closing handshake; on a socket that is
    already closing or closed the call does nothing. *)
Definition ws_close (code : Z) (ws : WebSocket) : WebSocket :=
  match readyState ws with
  | CLOSING | CLOSED => ws
  | CONNECTING | OPEN =>
      {| endpoint := endpoint ws; readyState := CLOSING; closeCode := Some code |}
  end.

(** The socket once the connection has ended. *)
Definition ws_closed (ws : WebSocket) : WebSocket :=
  {| endpoint := endpoint ws; readyState := CLOSED; closeCode := closeCode ws |}.

(** A request as it leaves the component: the endpoint and the merged
    parameter object. *)
Definition Request : Type := Endpoint * JsObj.

(** ** The session: the hooks of [App] *)

Record Session : Type := mkSession {
  appState : AppState;
  generatedCode : string;
  referenceImages : list string;
  executionConsole : list string;
  updateInstruction : string;
  history : list string;
  settings : Settings;
  shouldIncludeResultImage : bool;
  mistakesNum : Z;
  wsRef : option WebSocket;
  (** every request sent so far, oldest first (not a hook: the outbound
      side of the channel) *)
  outbox : list Request
}.

(** The first render: the [useState] initial values, [wsRef] null, the
    settings as [usePersistedState] loaded them. *)
Definition initialSession (st : Settings) : Session :=
  {| appState := INITIAL;
     generatedCode := "";
     referenceImages := [];
     executionConsole := [];
     updateInstruction := "";
     history := [];
     settings := st;
     shouldIncludeResultImage := false;
     mistakesNum := 0;
     wsRef := None;
     outbox := [] |}.

(** *** Setters *)

Definition setAppState (v : AppState) (s : Session) : Session :=
  {| appState := v; generatedCode := generatedCode s;
     referenceImages := referenceImages s; executionConsole := executionConsole s;
     updateInstruction := updateInstruction s; history := history s;
     settings := settings s; shouldIncludeResultImage := shouldIncludeResultImage s;
     mistakesNum := mistakesNum s; wsRef := wsRef s; outbox := outbox s |}.

Definition setGeneratedCode (v : string) (s : Session) : Session :=
  {| appState := appState s; generatedCode := v;
     referenceImages := referenceImages s; executionConsole := executionConsole s;
     updateInstruction := updateInstruction s; history := history s;
     settings := settings s; shouldIncludeResultImage := shouldIncludeResultImage s;
     mistakesNum := mistakesNum s; wsRef := wsRef s; outbox := outbox s |}.

Definition setReferenceImages (v : list string) (s : Session) : Session :=
  {| appState := appState s; generatedCode := generatedCode s;
     referenceImages := v; executionConsole := executionConsole s;
     updateInstruction := updateInstruction s; history := history s;
     settings := settings s; shouldIncludeResultImage := shouldIncludeResultImage s;
     mistakesNum := mistakesNum s; wsRef := wsRef s; outbox := outbox s |}.

Definition setExecutionConsole (v : list string) (s : Session) : Session :=
  {| appState := appState s; generatedCode := generatedCode s;
     referenceImages := referenceImages s; executionConsole := v;
     updateInstruction := updateInstruction s; history := history s;
     settings := settings s; shouldIncludeResultImage := shouldIncludeResultImage s;
     mistakesNum := mistakesNum s; wsRef := wsRef s; outbox := outbox s |}.

Definition setUpdateInstruction (v : string) (s : Session) : Session :=
  {| appState := appState s; generatedCode := generatedCode s;
     referenceImages := referenceImages s; executionConsole := executionConsole s;
     updateInstruction := v; history := history s;
     settings := settings s; shouldIncludeResultImage := shouldIncludeResultImage s;
     mistakesNum := mistakesNum s; wsRef := wsRef s; outbox := outbox s |}.

Definition setHistory (v : list string) (s : Session) : Session :=
  {| appState := appState s; generatedCode := generatedCode s;
     referenceImages := referenceImages s; executionConsole := executionConsole s;
     updateInstruction := updateInstruction s; history := v;
     settings := settings s; shouldIncludeResultImage := shouldIncludeResultImage s;
     mistakesNum := mistakesNum s; wsRef := wsRef s; outbox := outbox s |}.

Definition setSettings (v : Settings) (s : Session) : Session :=
  {| appState := appState s; generatedCode := generatedCode s;
     referenceImages := referenceImages s; executionConsole := executionConsole s;
     updateInstruction := updateInstruction s; history := history s;
     settings := v; shouldIncludeResultImage := shouldIncludeResultImage s;
     mistakesNum := mistakesNum s; wsRef := wsRef s; outbox := outbox s |}.

Definition setShouldIncludeResultImage (v : bool) (s : Session) : Session :=
  {| appState := appState s; generatedCode := generatedCode s;
     referenceImages := referenceImages s; executionConsole := executionConsole s;
     updateInstruction := updateInstruction s; history := history s;
     settings := settings s; shouldIncludeResultImage := v;
     mistakesNum := mistakesNum s; wsRef := wsRef s; outbox := outbox s |}.

Definition setMistakesNum (v : Z) (s : Session) : Session :=
  {| appState := appState s; generatedCode := generatedCode s;
     referenceImages := referenceImages s; executionConsole := executionConsole s;
     updateInstruction := updateInstruction s; history := history s;
     settings := settings s; shouldIncludeResultImage := shouldIncludeResultImage s;
     mistakesNum := v; wsRef := wsRef s; outbox := outbox s |}.

(** [wsRef.current = ...] *)
Definition setWsRef (v : option WebSocket) (s : Session) : Session :=
  {| appState := appState s; generatedCode := generatedCode s;
     referenceImages := referenceImages s; executionConsole := executionConsole s;
     updateInstruction := updateInstruction s; history := history s;
     settings := settings s; shouldIncludeResultImage := shouldIncludeResultImage s;
     mistakesNum := mistakesNum s; wsRef := v; outbox := outbox s |}.

Definition send (r : Request) (s : Session) : Session :=
  {| appState := appState s; generatedCode := generatedCode s;
     referenceImages := referenceImages s; executionConsole := executionConsole s;
     updateInstruction := updateInstruction s; history := history s;
     settings := settings s; shouldIncludeResultImage := shouldIncludeResultImage s;
     mistakesNum := mistakesNum s; wsRef := wsRef s; outbox := outbox s ++ [r] |}.

(** Statements of a handler, run one after the other. *)
Notation "f >>> g" := (fun s : Session => g (f s))
  (at level 61, left associativity, only parsing).

(** ** What the component imports from modules that are not modelled *)

(** [USER_CLOSE_WEB_SOCKET_CODE] of [./constants] and [calculateMistakesNum]
    of [./lib/utils].  [handleInstructions] of [./lib/utils] returns nothing
    and its result is not used; it does not touch a hook and is left out. *)
Class Imports : Type := {
  USER_CLOSE_WEB_SOCKET_CODE : Z;
  calculateMistakesNum : string -> Z
}.

(** Events that the channel hands to the callbacks. *)
Inductive StreamEvent : Set :=
| Token (text : string)
| Replace (fullText : string)
| Log (line : string)
| Done
| Cancelled.

(** The five operations of the component, with what the environment
    supplies to them: the dropped images for [doCreate], and for the two
    asynchronous handlers the string that [takeScreenshot] resolves to. *)
Inductive Op : Set :=
| OpCreate (images : list string)
| OpUpdate (screenshot : string)
| OpGenerateInstruction (screenshot : string)
| OpStop
| OpReset.

(** Everything that can change a hook: an operation, a direct edit through
    a widget, or an event on the socket. *)
Inductive Action : Set :=
| User (op : Op)
| EditInstruction (text : string)
| ToggleResultImage (checked : bool)
| EditCode (code : string)
| ChangeSettings (st : Settings)
| Stream (ev : StreamEvent).

Section Controller.
Context `{Imports}.

(** Modelled from the spec: [generateCode] of [./generateCode], the Channel
    Adapter's [open] (section 4.1) for a [Create] or [Update] request.  It
    opens one connection, stores it in [wsRef] and sends the parameters;
    the four callbacks it is given are the ones of [codeCallbacks]. *)
Definition generateCode (updatedParams : JsObj) : Session -> Session :=
  setWsRef (Some {| endpoint := GenerateCode; readyState := OPEN; closeCode := None |})
  >>> send (GenerateCode, updatedParams).

(** Modelled from the spec: [generateInstruction] of [./generateCode], the
    Channel Adapter's [open] for an [Instruction] request. *)
Definition generateInstruction (updatedParams : JsObj) : Session -> Session :=
  setWsRef (Some {| endpoint := GenerateInstruction; readyState := OPEN; closeCode := None |})
  >>> send (GenerateInstruction, updatedParams).

Definition reset : Session -> Session :=
  setAppState INITIAL
  >>> setGeneratedCode ""
  >>> setReferenceImages []
  >>> setExecutionConsole []
  >>> setHistory [].

(** [wsRef.current?.close?.(USER_CLOSE_WEB_SOCKET_CODE)] does nothing when
    [wsRef.current] is null. *)
Definition stop (s : Session) : Session :=
  (setWsRef (ws_close USER_CLOSE_WEB_SOCKET_CODE <$> wsRef s)
   >>> setAppState CODE_READY) s.

Definition doGenerateCode (params : JsObj) (s : Session) : Session :=
  (setExecutionConsole []
   >>> setAppState CODING
   >>> generateCode (spread params (settingsObj (settings s)))) s.

(** The four callbacks that [doGenerateCode] passes to [generateCode], in
    the order token, code, line, completion. *)
Definition codeCallbacks (ev : StreamEvent) (s : Session) : Session :=
  match ev with
  | Token token => setGeneratedCode (generatedCode s +:+ token) s
  | Replace code => setGeneratedCode code s
  | Log line => setExecutionConsole (executionConsole s ++ [line]) s
  | Done => setAppState CODE_READY s
  | Cancelled => s
  end.

Definition doGenerateInstruction (params : JsObj) (s : Session) : Session :=
  (setAppState INSTRUCTION_GENERATING
   >>> setUpdateInstruction ""
   >>> setMistakesNum 0
   >>> generateInstruction (spread params (settingsObj (settings s)))) s.

(** The four callbacks that [doGenerateInstruction] passes to
    [generateInstruction].  On completion the updater of
    [setUpdateInstruction] reads the instruction, sets the mistake count
    from it and returns it unchanged. *)
Definition instructionCallbacks (ev : StreamEvent) (s : Session) : Session :=
  match ev with
  | Token token => setUpdateInstruction (updateInstruction s +:+ token) s
  | Replace code => setUpdateInstruction code s
  | Log line => setExecutionConsole (executionConsole s ++ [line]) s
  | Done =>
      (setAppState CODE_READY
       >>> (fun s' => setMistakesNum (calculateMistakesNum (updateInstruction s')) s')) s
  | Cancelled => s
  end.

Definition doCreate (referenceImages : list string) : Session -> Session :=
  setReferenceImages referenceImages
  >>> (if decide (0 < length referenceImages)%nat
       then doGenerateCode
              (<["generationType" := VStr "create"]>
               (<["image" := index0 referenceImages]> ∅))
       else fun s => s).

(** [screenshot] is what [takeScreenshot] resolved to; it is awaited only
    when the switch is on.  [history], [generatedCode], [updateInstruction]
    and [referenceImages] are the values of the render in which the button
    was clicked. *)
Definition doUpdate (screenshot : string) (s : Session) : Session :=
  let updatedHistory := history s ++ [generatedCode s; updateInstruction s] in
  ((if shouldIncludeResultImage s
    then doGenerateCode
           (<["generationType" := VStr "update"]>
            (<["image" := index0 (referenceImages s)]>
            (<["resultImage" := VStr screenshot]>
            (<["history" := VArr updatedHistory]> ∅))))
    else doGenerateCode
           (<["generationType" := VStr "update"]>
            (<["image" := index0 (referenceImages s)]>
            (<["history" := VArr updatedHistory]> ∅))))
   >>> setHistory updatedHistory
   >>> setGeneratedCode ""
   >>> setUpdateInstruction "") s.

Definition instructionGenerate (screenshot : string) (s : Session) : Session :=
  let originalImage := index0 (referenceImages s) in
  doGenerateInstruction
    (<["image" := originalImage]> (<["resultImage" := VStr screenshot]> ∅)) s.

(** *** Events on the socket *)

Definition callbacks (ep : Endpoint) : StreamEvent -> Session -> Session :=
  match ep with
  | GenerateCode => codeCallbacks
  | GenerateInstruction => instructionCallbacks
  end.

Definition terminal (ev : StreamEvent) : bool :=
  match ev with
  | Done | Cancelled => true
  | Token _ | Replace _ | Log _ => false
  end.

(** Modelled from the spec: the inbound half of [./generateCode] (section
    4.1).  An event of the socket in [wsRef] is handed to the callback of
    its kind; [Done] and [Cancelled] are the last event of a run and no
    event is delivered after either; a socket that [stop] has started to
    close delivers nothing but its [Cancelled]. *)
Definition deliver (ev : StreamEvent) (s : Session) : Session :=
  match wsRef s with
  | None => s
  | Some ws =>
      match readyState ws with
      | OPEN =>
          if terminal ev
          then (callbacks (endpoint ws) ev >>> setWsRef (Some (ws_closed ws))) s
          else callbacks (endpoint ws) ev s
      | CLOSING =>
          match ev with
          | Cancelled => setWsRef (Some (ws_closed ws)) s
          | _ => s
          end
      | CONNECTING | CLOSED => s
      end
  end.

(** *** Running the component *)

Definition invoke (op : Op) : Session -> Session :=
  match op with
  | OpCreate images => doCreate images
  | OpUpdate screenshot => doUpdate screenshot
  | OpGenerateInstruction screenshot => instructionGenerate screenshot
  | OpStop => stop
  | OpReset => reset
  end.

Definition run (a : Action) : Session -> Session :=
  match a with
  | User op => invoke op
  | EditInstruction text => setUpdateInstruction text
  | ToggleResultImage checked => setShouldIncludeResultImage checked
  | EditCode code => setGeneratedCode code
  | ChangeSettings st => setSettings st
  | Stream ev => deliver ev
  end.

(** A run of the component: the actions applied from left to right. *)
Definition exec (tr : list Action) (s : Session) : Session :=
  foldl (fun acc a => run a acc) s tr.

(** The sessions that a run can reach from the first render. *)
Definition reached (st : Settings) (tr : list Action) : Session :=
  exec tr (initialSession st).

(** *** What the rendered page offers

    The JSX renders the drop zone and the URL box only when
    [appState === INITIAL], the Stop button only when
    [appState === CODING], and Update, Generate Instruction and Reset when
    [appState] is [CODE_READY] or [INSTRUCTION_GENERATING], disabled in the
    latter. *)
Definition offered (p : AppState) (op : Op) : bool :=
  match op with
  | OpCreate _ => bool_decide (p = INITIAL)
  | OpStop => bool_decide (p = CODING)
  | OpUpdate _ | OpGenerateInstruction _ | OpReset =>
      bool_decide (p = CODE_READY ∨ p = INSTRUCTION_GENERATING)
      && negb (bool_decide (p = INSTRUCTION_GENERATING))
  end.

(** An operation requested through the page: the handler runs when its
    widget is there and enabled, and nothing happens otherwise. *)
Definition click (op : Op) (s : Session) : Session :=
  if offered (appState s) op then invoke op s else s.

End Controller.

(** ** The vocabulary of the specification *)

(** The operations that sections 4.3 and 4.5 of the specification list as
    legal in each phase: [create] in [INITIAL]; [update] and
    [generateInstruction] in [READY]; [stop] in [GENERATING] and
    [REFINING]; [reset] in every phase. *)
Definition spec_legal (p : AppState) (op : Op) : bool :=
  match op with
  | OpCreate _ => bool_decide (p = INITIAL)
  | OpUpdate _ | OpGenerateInstruction _ => bool_decide (p = CODE_READY)
  | OpStop => bool_decide (p = CODING ∨ p = INSTRUCTION_GENERATING)
  | OpReset => true
  end.

(** The History Ledger of the specification, read off the flat [history]
    array: the array holds, turn after turn, the code and then the
    instruction of that turn. *)
Fixpoint spec_ledger (h : list string) : list (string * string) :=
  match h with
  | priorCode :: instructionApplied :: rest =>
      (priorCode, instructionApplied) :: spec_ledger rest
  | _ => []
  end.

(** The actions that empty the console: [reset], and the two that start a
    code generation. *)
Definition restarts_console (a : Action) : bool :=
  match a with
  | User (OpCreate _) | User (OpUpdate _) | User OpReset => true
  | _ => false
  end.

(** What every run keeps true: the [history] array holds whole
    (code, instruction) pairs, and a session in [INITIAL] has no reference
    image. *)
Definition well_formed (s : Session) : Prop :=
  (exists n : nat, length (history s) = (2 * n)%nat)
  /\ (appState s = INITIAL -> referenceImages s = []).

(** The requests that a handler sends when it runs from [s]. *)
Definition issued (f : Session -> Session) (s : Session) : list Request :=
  drop (length (outbox s)) (outbox (f s)).

(** The socket of the session is open: a generation or a refinement is in
    flight. *)
Definition handle_open (s : Session) : bool :=
  match wsRef s with
  | Some ws => bool_decide (readyState ws = OPEN)
  | None => false
  end.


(** ** The rest of the component *)

(** *** takeScreenshot

    The part of the page that [takeScreenshot] reads: the element that
    [document.querySelector("#preview-desktop")] finds, if any, its
    [contentWindow], if any, and the [body] of that window's document, if
    any.  What [html2canvas] draws for a body and [toDataURL("image/png")]
    encodes is left to the browser: [png] stands for the two together. *)
Section Screenshot.
Variable Body : Type.
Variable png : Body -> string.

Record Document : Type := { body : option Body }.
Record Window : Type := { document : Document }.
Record HTMLIFrameElement : Type := { contentWindow : option Window }.

(** [iframeElement?.contentWindow?.document.body]: [undefined] as soon as
    one link of the chain is missing. *)
Definition previewBody (iframeElement : option HTMLIFrameElement) : option Body :=
  match iframeElement with
  | None => None
  | Some el =>
      match contentWindow el with
      | None => None
      | Some w => body (document w)
      end
  end.

Definition takeScreenshot (iframeElement : option HTMLIFrameElement) : string :=
  match previewBody iframeElement with
  | None => ""
  | Some b => png b
  end.

End Screenshot.

Arguments body {Body} _.
Arguments document {Body} _.
Arguments contentWindow {Body} _.
Arguments previewBody {Body} _.
Arguments takeScreenshot {Body} _ _.

(** *** The terms-of-service dialog *)

(** [setSettings((s) => ({ ...s, isTermOfServiceAccepted: !open }))] *)
Definition handleTermDialogOpenChange (open : bool) (s : Session) : Session :=
  setSettings
    {| openAiApiKey := openAiApiKey (settings s);
       screenshotOneApiKey := screenshotOneApiKey (settings s);
       isImageGenerationEnabled := isImageGenerationEnabled (settings s);
       editorTheme := editorTheme (settings s);
       isTermOfServiceAccepted := negb open |} s.

(** The [open] property that the page gives to [TermsOfServiceDialog]. *)
Definition termsDialogOpen (s : Session) : bool :=
  negb (isTermOfServiceAccepted (settings s)).

(** *** What the page shows of the console *)

(** [executionConsole.slice(-1)[0]], the line beside the spinner: the last
    line, [undefined] on an empty console. *)
Definition statusLine (s : Session) : option string :=
  last (executionConsole s).

(** *** An update whose screenshot is awaited

    [doUpdate] is a closure of the render in which Update was clicked:
    [history], [generatedCode], [updateInstruction], [referenceImages],
    [shouldIncludeResultImage] and, through [doGenerateCode], [settings]
    are the values of that render.  When the switch is on the handler
    awaits [takeScreenshot] first, and the setters then act on the hooks as
    they are when the screenshot arrives.  [render] is the session of the
    click and [now] the session at the time the handler goes on. *)
Definition doGenerateCodeFrom (render : Session) (params : JsObj)
    : Session -> Session :=
  setExecutionConsole []
  >>> setAppState CODING
  >>> generateCode (spread params (settingsObj (settings render))).

Definition doUpdateFrom (render : Session) (screenshot : string)
    : Session -> Session :=
  let updatedHistory :=
    history render ++ [generatedCode render; updateInstruction render] in
  (if shouldIncludeResultImage render
   then doGenerateCodeFrom render
          (<["generationType" := VStr "update"]>
           (<["image" := index0 (referenceImages render)]>
           (<["resultImage" := VStr screenshot]>
           (<["history" := VArr updatedHistory]> ∅))))
   else doGenerateCodeFrom render
          (<["generationType" := VStr "update"]>
           (<["image" := index0 (referenceImages render)]>
           (<["history" := VArr updatedHistory]> ∅))))
  >>> setHistory updatedHistory
  >>> setGeneratedCode ""
  >>> setUpdateInstruction "".

(** *** Reading a run *)

(** The lines of the [Log] events of a stretch of events, in order. *)
Definition logLines (evs : list StreamEvent) : list string :=
  flat_map (fun ev => match ev with Log line => [line] | _ => [] end) evs.

(** The text that a stretch of [Token] and [Replace] events builds on top
    of [text]: a token is appended, a replacement starts over. *)
Definition streamedText (text : string) (evs : list StreamEvent) : string :=
  foldl (fun acc ev =>
           match ev with
           | Token token => acc +:+ token
           | Replace fullText => fullText
           | _ => acc
           end) text evs.

(** The flat array that holds the entries of a ledger. *)
Definition flatten_ledger (l : list (string * string)) : list string :=
  flat_map (fun entry => [entry.1; entry.2]) l.

(** The actions that send a request. *)
Definition sends (a : Action) : bool :=
  match a with
  | User (OpCreate (_ :: _)) | User (OpUpdate _)
  | User (OpGenerateInstruction _) => true
  | _ => false
  end.

(** The hooks of the session, and for each the actions that hold a call
    of its setter: the handlers that call it, the widget that is bound to
    it, and the stream events whose callback calls it. *)
Inductive Hook : Set :=
| HAppState
| HGeneratedCode
| HReferenceImages
| HExecutionConsole
| HUpdateInstruction
| HHistory
| HSettings
| HShouldIncludeResultImage
| HMistakesNum.

Definition hookEq (h : Hook) (s s' : Session) : Prop :=
  match h with
  | HAppState => appState s = appState s'
  | HGeneratedCode => generatedCode s = generatedCode s'
  | HReferenceImages => referenceImages s = referenceImages s'
  | HExecutionConsole => executionConsole s = executionConsole s'
  | HUpdateInstruction => updateInstruction s = updateInstruction s'
  | HHistory => history s = history s'
  | HSettings => settings s = settings s'
  | HShouldIncludeResultImage =>
      shouldIncludeResultImage s = shouldIncludeResultImage s'
  | HMistakesNum => mistakesNum s = mistakesNum s'
  end.

Definition writes (a : Action) (h : Hook) : bool :=
  match h, a with
  | HAppState, (User _ | Stream Done) => true
  | HGeneratedCode,
    (User OpReset | User (OpUpdate _) | EditCode _
     | Stream (Token _) | Stream (Replace _)) => true
  | HReferenceImages, (User (OpCreate _) | User OpReset) => true
  | HExecutionConsole,
    (User (OpCreate _) | User (OpUpdate _) | User OpReset
     | Stream (Log _)) => true
  | HUpdateInstruction,
    (User (OpUpdate _) | User (OpGenerateInstruction _) | EditInstruction _
     | Stream (Token _) | Stream (Replace _)) => true
  | HHistory, (User (OpUpdate _) | User OpReset) => true
  | HSettings, ChangeSettings _ => true
  | HShouldIncludeResultImage, ToggleResultImage _ => true
  | HMistakesNum, (User (OpGenerateInstruction _) | Stream Done) => true
  | _, _ => false
  end.

(** The keys of the settings object. *)
Definition settingsKeys : gset string :=
  {[ "openAiApiKey"; "screenshotOneApiKey"; "isImageGenerationEnabled";
     "editorTheme"; "isTermOfServiceAccepted" ]}.

(** ** Sample values for the examples *)

(** Stand-ins for the two imports, used where a statement is evaluated on
    a concrete session: a close code, and a count of one mistake for each
    finding that ends in a semicolon. *)
Fixpoint count_semicolons (text : string) : nat :=
  match text with
  | EmptyString => 0
  | String c rest =>
      (if Ascii.eqb c (Ascii.ascii_of_nat 59) then 1 else 0) + count_semicolons rest
  end%nat.

Definition exampleImports : Imports :=
  {| USER_CLOSE_WEB_SOCKET_CODE := 4333;
     calculateMistakesNum := fun instruction => Z.of_nat (count_semicolons instruction) |}.

(** The session at rest in [CODE_READY] after one generation that logged
    one line. *)
Definition readySession : Session :=
  @reached exampleImports defaultSettings
    [User (OpCreate ["img1"]);
     Stream (Log "Generating code...");
     Stream (Token "<html>A</html>");
     Stream Done].

(** The same session after a refinement instruction has been generated
    for it. *)
Definition refinedSession : Session :=
  @exec exampleImports
    [User (OpGenerateInstruction "shot");
     Stream (Token "header is red;");
     Stream (Token " title is left;");
     Stream Done]
    readySession.

(** ** Properties *)

(** *** Auxiliary facts *)

Lemma ws_close_idempotent (code : Z) (ws : WebSocket) :
  ws_close code (ws_close code ws) = ws_close code ws.
Proof. destruct ws as [ep [] cc]; reflexivity. Qed.

Lemma spec_ledger_snoc (n : nat) :
  forall (h : list string) (priorCode instructionApplied : string),
    length h = (2 * n)%nat ->
    spec_ledger (h ++ [priorCode; instructionApplied])
    = spec_ledger h ++ [(priorCode, instructionApplied)].
Proof.
  induction n as [|n IH]; intros h c i Hlen.
  - destruct h; [reflexivity | discriminate].
  - destruct h as [|x [|y h]]; cbn in Hlen; try lia.
    cbn. f_equal. apply IH. lia.
Qed.

Lemma spec_ledger_length (n : nat) :
  forall h : list string, length h = (2 * n)%nat -> length (spec_ledger h) = n.
Proof.
  induction n as [|n IH]; intros h Hlen.
  - destruct h; [reflexivity | discriminate].
  - destruct h as [|x [|y h]]; cbn in Hlen; try lia.
    cbn. f_equal. apply IH. lia.
Qed.

Lemma spread_settings_image (params : JsObj) (st : Settings) :
  spread params (settingsObj st) !! "image" = params !! "image".
Proof.
  unfold spread, settingsObj.
  rewrite lookup_union.
  repeat (rewrite lookup_insert_ne by discriminate).
  rewrite lookup_empty. destruct (params !! "image"); reflexivity.
Qed.

Lemma issued_send (f : Session -> Session) (s : Session) (r : Request) :
  outbox (f s) = outbox s ++ [r] -> issued f s = [r].
Proof.
  intros E. unfold issued. rewrite E. apply drop_app_length.
Qed.

(** The handler sends exactly the request at hand. *)
Ltac one_request_with tac := apply issued_send; tac; reflexivity.
Ltac one_request := one_request_with idtac.

(** The merged parameters hold the image under the key ["image"]. *)
Ltac image_key :=
  rewrite spread_settings_image;
  repeat (rewrite lookup_insert_ne by discriminate);
  apply lookup_insert_eq.

Lemma issued_none (f : Session -> Session) (s : Session) :
  outbox (f s) = outbox s -> issued f s = [].
Proof.
  intros E. unfold issued. rewrite E. apply drop_all.
Qed.

Lemma reset_fields (s : Session) :
  reset s =
  {| appState := INITIAL; generatedCode := ""; referenceImages := [];
     executionConsole := []; updateInstruction := updateInstruction s;
     history := []; settings := settings s;
     shouldIncludeResultImage := shouldIncludeResultImage s;
     mistakesNum := mistakesNum s; wsRef := wsRef s; outbox := outbox s |}.
Proof. reflexivity. Qed.

Lemma doGenerateCode_fields (params : JsObj) (s : Session) :
  doGenerateCode params s =
  {| appState := CODING; generatedCode := generatedCode s;
     referenceImages := referenceImages s; executionConsole := [];
     updateInstruction := updateInstruction s; history := history s;
     settings := settings s;
     shouldIncludeResultImage := shouldIncludeResultImage s;
     mistakesNum := mistakesNum s;
     wsRef := Some {| endpoint := GenerateCode; readyState := OPEN; closeCode := None |};
     outbox := outbox s ++ [(GenerateCode, spread params (settingsObj (settings s)))] |}.
Proof. reflexivity. Qed.

Lemma doGenerateInstruction_fields (params : JsObj) (s : Session) :
  doGenerateInstruction params s =
  {| appState := INSTRUCTION_GENERATING; generatedCode := generatedCode s;
     referenceImages := referenceImages s; executionConsole := executionConsole s;
     updateInstruction := ""; history := history s;
     settings := settings s;
     shouldIncludeResultImage := shouldIncludeResultImage s;
     mistakesNum := 0;
     wsRef := Some {| endpoint := GenerateInstruction; readyState := OPEN; closeCode := None |};
     outbox := outbox s ++ [(GenerateInstruction, spread params (settingsObj (settings s)))] |}.
Proof. reflexivity. Qed.

Lemma doCreate_cons (image : string) (more : list string) (s : Session) :
  doCreate (image :: more) s
  = doGenerateCode
      (<["generationType" := VStr "create"]> (<["image" := VStr image]> ∅))
      (setReferenceImages (image :: more) s).
Proof. reflexivity. Qed.

Section Properties.
Context `{Imports}.

Lemma stop_fields (s : Session) :
  stop s =
  {| appState := CODE_READY; generatedCode := generatedCode s;
     referenceImages := referenceImages s; executionConsole := executionConsole s;
     updateInstruction := updateInstruction s; history := history s;
     settings := settings s;
     shouldIncludeResultImage := shouldIncludeResultImage s;
     mistakesNum := mistakesNum s;
     wsRef := ws_close USER_CLOSE_WEB_SOCKET_CODE <$> wsRef s;
     outbox := outbox s |}.
Proof. reflexivity. Qed.

Lemma exec_snoc (tr : list Action) (a : Action) (s : Session) :
  exec (tr ++ [a]) s = run a (exec tr s).
Proof. unfold exec. rewrite foldl_app. reflexivity. Qed.

(** *** Two invariants of every run *)

Lemma well_formed_initial (st : Settings) : well_formed (initialSession st).
Proof. split; [exists 0%nat; reflexivity | reflexivity]. Qed.

Lemma well_formed_deliver (ev : StreamEvent) (s : Session) :
  well_formed s -> well_formed (deliver ev s).
Proof.
  intros [Hh Hi]. unfold deliver.
  destruct (wsRef s) as [[ep st cc]|]; [|split; assumption].
  destruct st, ep, ev; cbn; split; cbn; try assumption; try discriminate.
Qed.

Lemma well_formed_invoke (op : Op) (s : Session) :
  well_formed s -> well_formed (invoke op s).
Proof.
  intros [[n Hh] Hi]. destruct op as [images|shot|shot| |]; cbn.
  - unfold doCreate. destruct (decide (0 < length images)%nat) as [Hpos|Hnpos].
    + split; cbn; [exists n; assumption | discriminate].
    + split; cbn; [exists n; assumption |].
      intros _. destruct images; [reflexivity | cbn in Hnpos; lia].
  - unfold doUpdate.
    destruct (shouldIncludeResultImage s); (split; cbn; [|discriminate]);
      exists (S n); rewrite length_app; cbn; lia.
  - split; cbn; [exists n; assumption | discriminate].
  - split; cbn; [exists n; assumption | discriminate].
  - split; cbn; [exists 0%nat; reflexivity | reflexivity].
Qed.

Lemma well_formed_run (a : Action) (s : Session) :
  well_formed s -> well_formed (run a s).
Proof.
  destruct a; cbn [run];
    auto using well_formed_invoke, well_formed_deliver;
    intros [Hh Hi]; split; assumption.
Qed.

Lemma well_formed_reached (st : Settings) (tr : list Action) :
  well_formed (reached st tr).
Proof.
  unfold reached. induction tr as [|a tr IH] using rev_ind.
  - apply well_formed_initial.
  - rewrite exec_snoc. apply well_formed_run, IH.
Qed.

(** *** update *)

(** C2.  In every session that a run reaches and that is in [CODE_READY],
    [doUpdate] appends the code and the instruction, as they were before
    the call, to the [history] array; read as the History Ledger this is
    exactly one more entry, the pair of the two, at the end; the code and
    the instruction of the resulting session are empty. *)
Theorem C2_update_appends_one_entry
    (st : Settings) (tr : list Action) (screenshot : string) :
  let s := reached st tr in
  appState s = CODE_READY ->
  history (doUpdate screenshot s)
  = history s ++ [generatedCode s; updateInstruction s]
  /\ spec_ledger (history (doUpdate screenshot s))
     = spec_ledger (history s) ++ [(generatedCode s, updateInstruction s)]
  /\ length (spec_ledger (history (doUpdate screenshot s)))
     = S (length (spec_ledger (history s)))
  /\ generatedCode (doUpdate screenshot s) = ""
  /\ updateInstruction (doUpdate screenshot s) = "".
Proof.
  intros s _.
  destruct (well_formed_reached st tr) as [[n Hn] _]. fold s in Hn.
  assert (Hh : history (doUpdate screenshot s)
               = history s ++ [generatedCode s; updateInstruction s]).
  { unfold doUpdate. destruct (shouldIncludeResultImage s); reflexivity. }
  rewrite Hh, (spec_ledger_snoc n) by assumption.
  split; [reflexivity|]. split; [reflexivity|]. split; [|split; reflexivity].
  rewrite length_app. cbn. lia.
Qed.

(** *** stop *)

(** C6.  [stop] after [stop] gives the session that one [stop] gives, and
    its phase is [CODE_READY]. *)
Theorem C6_stop_twice (s : Session) :
  stop (stop s) = stop s /\ appState (stop (stop s)) = CODE_READY.
Proof.
  split; [|reflexivity].
  rewrite !stop_fields. cbn. f_equal.
  destruct (wsRef s) as [ws|]; cbn; [|reflexivity].
  f_equal. apply ws_close_idempotent.
Qed.

(** C9.  From [CODING], [stop] moves to [CODE_READY] and leaves the code,
    the history, the reference images, the console and the instruction as
    they were. *)
Theorem C9_stop_keeps_partial_buffer (s : Session) :
  appState s = CODING ->
  appState (stop s) = CODE_READY
  /\ generatedCode (stop s) = generatedCode s
  /\ history (stop s) = history s
  /\ referenceImages (stop s) = referenceImages s
  /\ executionConsole (stop s) = executionConsole s
  /\ updateInstruction (stop s) = updateInstruction s.
Proof. intros _. repeat split. Qed.

(** *** Operations requested in a phase where they are not legal *)

Lemma offered_legal (p : AppState) (op : Op) :
  offered p op = true -> spec_legal p op = true.
Proof. destruct p, op; cbn; intros E; first [reflexivity | discriminate E]. Qed.

(** C3, as amended.  An operation that is not legal in the phase of the
    session and is requested through the page leaves the session as it is:
    its widget is not rendered, or is disabled, in that phase. *)
Theorem C3_illegal_click_is_noop (s : Session) (op : Op) :
  spec_legal (appState s) op = false -> click op s = s.
Proof.
  intros Hill. unfold click.
  destruct (offered (appState s) op) eqn:Hoff; [|reflexivity].
  apply offered_legal in Hoff. congruence.
Qed.


(** *** The console *)

(** C5, as amended.  An action that does not start a code generation and
    is not [reset] keeps the lines of the console and at most adds to their
    end; a [Log] event on an open socket adds its line at the end; [doUpdate]
    and [doCreate] with at least one image empty the console. *)
Theorem C5_console_append_only_within_generation (s : Session) :
  (forall a : Action,
      restarts_console a = false ->
      executionConsole s `prefix_of` executionConsole (run a s))
  /\ (forall line : string,
         handle_open s = true ->
         executionConsole (run (Stream (Log line)) s)
         = executionConsole s ++ [line])
  /\ (forall screenshot : string,
         executionConsole (run (User (OpUpdate screenshot)) s) = [])
  /\ (forall (image : string) (more : list string),
         executionConsole (run (User (OpCreate (image :: more))) s) = []).
Proof.
  repeat split.
  - intros a Ha.
    destruct a as [[images|shot|shot| |]|text|b|code|st|ev];
      try discriminate Ha; cbn; try reflexivity.
    unfold deliver. destruct (wsRef s) as [[ep rs cc]|]; [|reflexivity].
    destruct rs, ep, ev; cbn; first [reflexivity | apply prefix_app_r; reflexivity].
  - intros line Hopen. cbn. unfold deliver, handle_open in *.
    destruct (wsRef s) as [[ep rs cc]|]; [|discriminate].
    destruct rs; try discriminate. destruct ep; reflexivity.
  - intros shot. cbn. unfold doUpdate.
    destruct (shouldIncludeResultImage s); reflexivity.
Qed.

(** *** create *)

(** C7.  In every session that a run reaches and that is in [INITIAL],
    [doCreate] with no image gives back the same session: the phase stays
    [INITIAL], no request is sent, and no field changes. *)
Theorem C7_create_without_images_is_noop (st : Settings) (tr : list Action) :
  let s := reached st tr in
  appState s = INITIAL ->
  doCreate [] s = s
  /\ appState (doCreate [] s) = INITIAL
  /\ issued (doCreate []) s = [].
Proof.
  intros s Hinit.
  destruct (well_formed_reached st tr) as [_ Himg]. fold s in Himg.
  specialize (Himg Hinit).
  assert (E : doCreate [] s = s).
  { unfold doCreate. cbn. destruct s; cbn in *; subst; reflexivity. }
  rewrite E. repeat split; [assumption|].
  apply issued_none. rewrite E. reflexivity.
Qed.

(** *** The token stream *)

Lemma append_assoc (a b c : string) : (a +:+ b) +:+ c = a +:+ (b +:+ c).
Proof.
  induction a as [|ch a IH]; [reflexivity|].
  change (String ch ((a +:+ b) +:+ c) = String ch (a +:+ (b +:+ c))).
  f_equal. exact IH.
Qed.

Lemma append_empty_r (a : string) : a +:+ "" = a.
Proof.
  induction a as [|ch a IH]; [reflexivity|].
  change (String ch (a +:+ "") = String ch a). f_equal. exact IH.
Qed.

Lemma tokens_concatenate (toks : list string) :
  forall s : Session,
    wsRef s = Some {| endpoint := GenerateCode; readyState := OPEN; closeCode := None |} ->
    exec (map (fun t => Stream (Token t)) toks) s
    = setGeneratedCode (generatedCode s +:+ foldr String.append "" toks) s.
Proof.
  induction toks as [|t toks IH]; intros s Hws.
  - cbn. rewrite append_empty_r. destruct s; reflexivity.
  - change (exec (map (fun t => Stream (Token t)) (t :: toks)) s)
      with (exec (map (fun t => Stream (Token t)) toks) (deliver (Token t) s)).
    assert (E : deliver (Token t) s = setGeneratedCode (generatedCode s +:+ t) s).
    { unfold deliver. rewrite Hws. reflexivity. }
    rewrite E, IH by exact Hws.
    cbn [foldr]. unfold setGeneratedCode; cbn. rewrite append_assoc. reflexivity.
Qed.

(** C8.  After [doCreate] with at least one image the phase is [CODING]
    and the code is what it was; the tokens that arrive then are appended
    to the code in their order of arrival; [Done] then sets the phase to
    [CODE_READY] and leaves every other hook as it is.  In particular, from
    a session in [INITIAL] with no code, [doCreate ["img1"]], [Token "<ht"],
    [Token "ml>"] and [Done] give the code ["<html>"] in [CODE_READY]. *)
Theorem C8_tokens_concatenate_done_sets_phase (s : Session) :
  appState s = INITIAL ->
  generatedCode s = "" ->
  (forall (image : string) (more toks : list string),
      let s1 := run (User (OpCreate (image :: more))) s in
      let s2 := exec (map (fun t => Stream (Token t)) toks) s1 in
      let s3 := run (Stream Done) s2 in
      appState s1 = CODING
      /\ generatedCode s1 = ""
      /\ s2 = setGeneratedCode (foldr String.append "" toks) s1
      /\ s3 = setWsRef (wsRef s3) (setAppState CODE_READY s2))
  /\ (let s1 := run (User (OpCreate ["img1"])) s in
      let s2 := run (Stream (Token "<ht")) s1 in
      let s3 := run (Stream (Token "ml>")) s2 in
      let s4 := run (Stream Done) s3 in
      appState s1 = CODING
      /\ generatedCode s1 = ""
      /\ generatedCode s3 = "<html>"
      /\ appState s4 = CODE_READY
      /\ generatedCode s4 = "<html>").
Proof.
  intros _ Hcode. split.
  - intros image more toks s1 s2 s3.
    assert (E2 : s2 = setGeneratedCode (foldr String.append "" toks) s1).
    { unfold s2. rewrite tokens_concatenate by reflexivity.
      unfold s1. cbn [run invoke]. rewrite doCreate_cons, doGenerateCode_fields.
      cbn. rewrite Hcode. reflexivity. }
    repeat split; [exact Hcode | exact E2 |].
    unfold s3. rewrite E2. reflexivity.
  - cbn [run invoke]. rewrite doCreate_cons, doGenerateCode_fields.
    cbn. rewrite Hcode. repeat split.
Qed.

(** *** The image parameter *)

(** C10.  The request that [doCreate], [doUpdate] and [instructionGenerate]
    send carries the first reference image under the key ["image"], and the
    whole request is the same whatever images follow the first. *)
Theorem C10_only_first_image_is_sent
    (s : Session) (image : string) (more more' : list string)
    (screenshot : string) :
  let s1 := setReferenceImages (image :: more) s in
  let s2 := setReferenceImages (image :: more') s in
  (exists p : JsObj,
      issued (doCreate (image :: more)) s = [(GenerateCode, p)]
      /\ issued (doCreate (image :: more')) s = [(GenerateCode, p)]
      /\ p !! "image" = Some (VStr image))
  /\ (exists p : JsObj,
         issued (doUpdate screenshot) s1 = [(GenerateCode, p)]
         /\ issued (doUpdate screenshot) s2 = [(GenerateCode, p)]
         /\ p !! "image" = Some (VStr image))
  /\ (exists p : JsObj,
         issued (instructionGenerate screenshot) s1 = [(GenerateInstruction, p)]
         /\ issued (instructionGenerate screenshot) s2 = [(GenerateInstruction, p)]
         /\ p !! "image" = Some (VStr image)).
Proof.
  intros s1 s2. repeat split.
  - eexists. split; [|split]; [one_request .. | image_key].
  - destruct (shouldIncludeResultImage s) eqn:Hinc;
      (eexists; split; [|split];
       [ one_request_with ltac:(unfold doUpdate, s1; cbn; rewrite Hinc)
       | one_request_with ltac:(unfold doUpdate, s2; cbn; rewrite Hinc)
       | image_key ]).
  - eexists. split; [|split]; [one_request .. | image_key].
Qed.

End Properties.

(** ** Further properties of the component *)

Section StreamProperties.
Context `{Imports}.

(** *** A stretch of events on an open socket *)

Lemma exec_cons (a : Action) (tr : list Action) (s : Session) :
  exec (a :: tr) s = exec tr (run a s).
Proof. reflexivity. Qed.

Lemma streamedText_tokens (toks : list string) :
  forall text : string,
    streamedText text (map Token toks) = text +:+ foldr String.append "" toks.
Proof.
  induction toks as [|t toks IH]; intros text.
  - cbn. symmetry. apply append_empty_r.
  - cbn [map foldr]. change (streamedText text (Token t :: map Token toks))
      with (streamedText (text +:+ t) (map Token toks)).
    rewrite IH. apply append_assoc.
Qed.

Lemma streamedText_replace (evs1 evs2 : list StreamEvent) (text fullText : string) :
  streamedText text (evs1 ++ Replace fullText :: evs2)
  = streamedText fullText evs2.
Proof. unfold streamedText. rewrite foldl_app. reflexivity. Qed.

Lemma exec_stream_code (evs : list StreamEvent) :
  forall (s : Session) (cc : option Z),
    Forall (fun ev => terminal ev = false) evs ->
    wsRef s = Some {| endpoint := GenerateCode; readyState := OPEN; closeCode := cc |} ->
    exec (map Stream evs) s
    = setExecutionConsole (executionConsole s ++ logLines evs)
        (setGeneratedCode (streamedText (generatedCode s) evs) s).
Proof.
  induction evs as [|ev evs IH]; intros s cc Hnt Hws.
  - cbn. rewrite app_nil_r. destruct s; reflexivity.
  - apply Forall_cons in Hnt as [Hev Hnt].
    cbn [map]. rewrite exec_cons. cbn [run].
    assert (E : deliver ev s = codeCallbacks ev s).
    { unfold deliver. rewrite Hws. cbn. rewrite Hev. reflexivity. }
    rewrite E.
    assert (Hws' : wsRef (codeCallbacks ev s)
                   = Some {| endpoint := GenerateCode; readyState := OPEN; closeCode := cc |}).
    { destruct ev; cbn; exact Hws || discriminate Hev. }
    rewrite (IH _ cc Hnt Hws').
    destruct ev; try discriminate Hev; cbn; try reflexivity.
    rewrite <- app_assoc. reflexivity.
Qed.

Lemma exec_stream_instruction (evs : list StreamEvent) :
  forall (s : Session) (cc : option Z),
    Forall (fun ev => terminal ev = false) evs ->
    wsRef s = Some {| endpoint := GenerateInstruction; readyState := OPEN; closeCode := cc |} ->
    exec (map Stream evs) s
    = setExecutionConsole (executionConsole s ++ logLines evs)
        (setUpdateInstruction (streamedText (updateInstruction s) evs) s).
Proof.
  induction evs as [|ev evs IH]; intros s cc Hnt Hws.
  - cbn. rewrite app_nil_r. destruct s; reflexivity.
  - apply Forall_cons in Hnt as [Hev Hnt].
    cbn [map]. rewrite exec_cons. cbn [run].
    assert (E : deliver ev s = instructionCallbacks ev s).
    { unfold deliver. rewrite Hws. cbn. rewrite Hev. reflexivity. }
    rewrite E.
    assert (Hws' : wsRef (instructionCallbacks ev s)
                   = Some {| endpoint := GenerateInstruction; readyState := OPEN; closeCode := cc |}).
    { destruct ev; cbn; exact Hws || discriminate Hev. }
    rewrite (IH _ cc Hnt Hws').
    destruct ev; try discriminate Hev; cbn; try reflexivity.
    rewrite <- app_assoc. reflexivity.
Qed.

(** X1.  A refinement run.  After [instructionGenerate], whatever the
    instruction box and the mistake count held, a stretch of tokens,
    replacements and log lines followed by [Done] leaves in the box the text
    that the stretch builds from the empty text, sets the mistake count to
    [calculateMistakesNum] of that text and the phase to [CODE_READY]; until
    [Done] the count is 0; the code and the history are those of before. *)
Theorem instruction_run_sets_mistakes
    (s : Session) (screenshot : string) (evs : list StreamEvent) :
  Forall (fun ev => terminal ev = false) evs ->
  let s1 := instructionGenerate screenshot s in
  let s2 := exec (map Stream evs) s1 in
  let s3 := run (Stream Done) s2 in
  mistakesNum s2 = 0
  /\ appState s2 = INSTRUCTION_GENERATING
  /\ updateInstruction s3 = streamedText "" evs
  /\ mistakesNum s3 = calculateMistakesNum (streamedText "" evs)
  /\ appState s3 = CODE_READY
  /\ generatedCode s3 = generatedCode s
  /\ history s3 = history s.
Proof.
  intros Hnt s1 s2 s3.
  assert (E2 : s2 = setExecutionConsole (executionConsole s ++ logLines evs)
                      (setUpdateInstruction (streamedText "" evs) s1)).
  { unfold s2. rewrite (exec_stream_instruction evs s1 None Hnt) by reflexivity.
    reflexivity. }
  unfold s3. rewrite E2. repeat split.
Qed.

(** X2.  A replacement supersedes what was streamed before it.  On an open
    code socket, after any stretch of events, a [Replace] and then tokens,
    the code is the replacement followed by those tokens, whatever the code
    was and whatever came before the replacement; the same holds for the
    instruction on an open instruction socket. *)
Theorem replace_supersedes_tokens
    (s : Session) (cc : option Z) (ep : Endpoint)
    (before : list StreamEvent) (fullText : string) (toks : list string) :
  Forall (fun ev => terminal ev = false) before ->
  wsRef s = Some {| endpoint := ep; readyState := OPEN; closeCode := cc |} ->
  let s' := exec (map Stream (before ++ Replace fullText :: map Token toks)) s in
  match ep with
  | GenerateCode =>
      generatedCode s' = fullText +:+ foldr String.append "" toks
      /\ updateInstruction s' = updateInstruction s
  | GenerateInstruction =>
      updateInstruction s' = fullText +:+ foldr String.append "" toks
      /\ generatedCode s' = generatedCode s
  end.
Proof.
  intros Hnt Hws s'.
  assert (Hall : Forall (fun ev => terminal ev = false)
                   (before ++ Replace fullText :: map Token toks)).
  { apply Forall_app. split; [exact Hnt|]. constructor; [reflexivity|].
    apply Forall_forall. intros ev Hin. apply list_elem_of_fmap in Hin as [t [-> _]].
    reflexivity. }
  destruct ep; unfold s'.
  - rewrite (exec_stream_code _ s cc Hall Hws). cbn.
    rewrite streamedText_replace, streamedText_tokens. split; reflexivity.
  - rewrite (exec_stream_instruction _ s cc Hall Hws). cbn.
    rewrite streamedText_replace, streamedText_tokens. split; reflexivity.
Qed.

(** X3.  The console collects the log lines of a run in their order of
    arrival, and tokens and replacements leave it alone: on an open socket
    of either kind, after a stretch of events the console is the former
    console followed by the lines of the [Log] events, and the line shown
    beside the spinner is the last of them, or the former one when the
    stretch holds no [Log]. *)
Theorem console_collects_log_lines
    (s : Session) (cc : option Z) (ep : Endpoint) (evs : list StreamEvent) :
  Forall (fun ev => terminal ev = false) evs ->
  wsRef s = Some {| endpoint := ep; readyState := OPEN; closeCode := cc |} ->
  executionConsole (exec (map Stream evs) s) = executionConsole s ++ logLines evs
  /\ statusLine (exec (map Stream evs) s)
     = match last (logLines evs) with
       | Some line => Some line
       | None => statusLine s
       end.
Proof.
  intros Hnt Hws.
  assert (E : executionConsole (exec (map Stream evs) s)
              = executionConsole s ++ logLines evs).
  { destruct ep.
    - rewrite (exec_stream_code _ s cc Hnt Hws). reflexivity.
    - rewrite (exec_stream_instruction _ s cc Hnt Hws). reflexivity. }
  split; [exact E|]. unfold statusLine. rewrite E. apply last_app.
Qed.

End StreamProperties.

(** *** The requests, key by key *)

Lemma dom_settingsObj (st : Settings) : dom (settingsObj st) = settingsKeys.
Proof.
  unfold settingsObj, settingsKeys.
  rewrite !dom_insert_L, dom_empty_L. set_solver.
Qed.

Lemma spread_settings_other (params : JsObj) (st : Settings) (k : string) :
  k ∉ settingsKeys -> spread params (settingsObj st) !! k = params !! k.
Proof.
  intros Hk. unfold spread. apply lookup_union_r.
  apply not_elem_of_dom. rewrite dom_settingsObj. exact Hk.
Qed.

Lemma spread_settings_subseteq (params : JsObj) (st : Settings) :
  settingsObj st ⊆ spread params (settingsObj st).
Proof. apply map_union_subseteq_l. Qed.

Lemma dom_spread_settings (params : JsObj) (st : Settings) :
  dom (spread params (settingsObj st)) = settingsKeys ∪ dom params.
Proof. unfold spread. rewrite dom_union_L, dom_settingsObj. reflexivity. Qed.

Lemma issued_doCreate (s : Session) (image : string) (more : list string) :
  issued (doCreate (image :: more)) s
  = [(GenerateCode,
      spread (<["generationType" := VStr "create"]> (<["image" := VStr image]> ∅))
        (settingsObj (settings s)))].
Proof. apply issued_send. reflexivity. Qed.

Lemma issued_doUpdate (s : Session) (screenshot : string) :
  issued (doUpdate screenshot) s
  = [(GenerateCode,
      spread
        (if shouldIncludeResultImage s
         then <["generationType" := VStr "update"]>
              (<["image" := index0 (referenceImages s)]>
              (<["resultImage" := VStr screenshot]>
              (<["history" := VArr (history s ++ [generatedCode s; updateInstruction s])]> ∅)))
         else <["generationType" := VStr "update"]>
              (<["image" := index0 (referenceImages s)]>
              (<["history" := VArr (history s ++ [generatedCode s; updateInstruction s])]> ∅)))
        (settingsObj (settings s)))].
Proof.
  apply issued_send. unfold doUpdate.
  destruct (shouldIncludeResultImage s); reflexivity.
Qed.

Lemma issued_instructionGenerate (s : Session) (screenshot : string) :
  issued (instructionGenerate screenshot) s
  = [(GenerateInstruction,
      spread (<["image" := index0 (referenceImages s)]>
              (<["resultImage" := VStr screenshot]> ∅))
        (settingsObj (settings s)))].
Proof. apply issued_send. reflexivity. Qed.

Lemma doUpdate_fields (s : Session) (screenshot : string) :
  doUpdate screenshot s =
  {| appState := CODING; generatedCode := "";
     referenceImages := referenceImages s; executionConsole := [];
     updateInstruction := "";
     history := history s ++ [generatedCode s; updateInstruction s];
     settings := settings s;
     shouldIncludeResultImage := shouldIncludeResultImage s;
     mistakesNum := mistakesNum s;
     wsRef := Some {| endpoint := GenerateCode; readyState := OPEN; closeCode := None |};
     outbox := outbox (doUpdate screenshot s) |}.
Proof.
  destruct s as [p gc ri ec ui hi st sw mn ws ob].
  unfold doUpdate. destruct sw; reflexivity.
Qed.

Lemma outbox_doUpdate (s : Session) (screenshot : string) :
  outbox (doUpdate screenshot s)
  = outbox s
    ++ [(GenerateCode,
         spread
           (if shouldIncludeResultImage s
            then <["generationType" := VStr "update"]>
                 (<["image" := index0 (referenceImages s)]>
                 (<["resultImage" := VStr screenshot]>
                 (<["history" := VArr (history s ++ [generatedCode s; updateInstruction s])]> ∅)))
            else <["generationType" := VStr "update"]>
                 (<["image" := index0 (referenceImages s)]>
                 (<["history" := VArr (history s ++ [generatedCode s; updateInstruction s])]> ∅)))
           (settingsObj (settings s)))].
Proof.
  destruct s as [p gc ri ec ui hi st sw mn ws ob].
  unfold doUpdate. destruct sw; reflexivity.
Qed.

Lemma history_doUpdate (s : Session) (screenshot : string) :
  history (doUpdate screenshot s)
  = history s ++ [generatedCode s; updateInstruction s].
Proof. unfold doUpdate. destruct (shouldIncludeResultImage s); reflexivity. Qed.

(** A key of the parameters that is no key of the settings. *)
Ltac not_a_setting :=
  unfold settingsKeys;
  rewrite !not_elem_of_union, !not_elem_of_singleton;
  repeat split; discriminate.

(** Looks a parameter up in the merged object. *)
Ltac param_key :=
  rewrite spread_settings_other by not_a_setting;
  repeat (rewrite lookup_insert_ne by discriminate);
  first [apply lookup_insert_eq | apply lookup_empty].

(** X5.  The request of [doCreate] with at least one image.  One request
    goes to the code endpoint; its keys are those of the settings with
    [generationType] and [image]; [generationType] is ["create"], [image] is
    the first image, the settings are there with their present values; the
    session stores the whole list of images. *)
Theorem create_request (s : Session) (image : string) (more : list string) :
  exists p : JsObj,
    issued (doCreate (image :: more)) s = [(GenerateCode, p)]
    /\ dom p = settingsKeys ∪ {[ "generationType"; "image" ]}
    /\ p !! "generationType" = Some (VStr "create")
    /\ p !! "image" = Some (VStr image)
    /\ settingsObj (settings s) ⊆ p
    /\ referenceImages (doCreate (image :: more) s) = image :: more.
Proof.
  eexists. split; [apply issued_doCreate|].
  split; [|split; [|split; [|split]]].
  - rewrite dom_spread_settings, !dom_insert_L, dom_empty_L. set_solver.
  - param_key.
  - param_key.
  - apply spread_settings_subseteq.
  - reflexivity.
Qed.

(** X6.  The request of [doUpdate].  One request goes to the code
    endpoint; [generationType] is ["update"]; [history] is the array that
    the session stores as its history afterwards; [resultImage] is the
    screenshot when the switch is on and is no key of the request when the
    switch is off; the settings are there with their present values. *)
Theorem update_request (s : Session) (screenshot : string) :
  exists p : JsObj,
    issued (doUpdate screenshot) s = [(GenerateCode, p)]
    /\ dom p = settingsKeys ∪ {[ "generationType"; "image"; "history" ]}
               ∪ (if shouldIncludeResultImage s then {[ "resultImage" ]} else ∅)
    /\ p !! "generationType" = Some (VStr "update")
    /\ p !! "image" = Some (index0 (referenceImages s))
    /\ p !! "history" = Some (VArr (history (doUpdate screenshot s)))
    /\ p !! "resultImage"
       = (if shouldIncludeResultImage s then Some (VStr screenshot) else None)
    /\ settingsObj (settings s) ⊆ p.
Proof.
  eexists. split; [apply issued_doUpdate|].
  rewrite history_doUpdate.
  destruct (shouldIncludeResultImage s);
    (split; [|split; [|split; [|split; [|split]]]]);
    [ rewrite dom_spread_settings, !dom_insert_L, dom_empty_L; set_solver
    | param_key | param_key | param_key | param_key
    | apply spread_settings_subseteq
    | rewrite dom_spread_settings, !dom_insert_L, dom_empty_L; set_solver
    | param_key | param_key | param_key | param_key
    | apply spread_settings_subseteq ].
Qed.

(** X7.  The request of [instructionGenerate].  One request goes to the
    instruction endpoint; its keys are those of the settings with [image]
    and [resultImage]; [resultImage] is the screenshot, [image] is the first
    reference image, [undefined] when the session has none; the settings are
    there with their present values. *)
Theorem instruction_request (s : Session) (screenshot : string) :
  exists p : JsObj,
    issued (instructionGenerate screenshot) s = [(GenerateInstruction, p)]
    /\ dom p = settingsKeys ∪ {[ "image"; "resultImage" ]}
    /\ p !! "image" = Some (index0 (referenceImages s))
    /\ p !! "resultImage" = Some (VStr screenshot)
    /\ settingsObj (settings s) ⊆ p.
Proof.
  eexists. split; [apply issued_instructionGenerate|].
  split; [|split; [|split]].
  - rewrite dom_spread_settings, !dom_insert_L, dom_empty_L. set_solver.
  - param_key.
  - param_key.
  - apply spread_settings_subseteq.
Qed.

(** X8.  A preview that is not there.  When [takeScreenshot] finds no
    element, no window or no body, it gives the empty string, and the
    requests then carry [resultImage] as the empty string: the one of
    [instructionGenerate] always, the one of [doUpdate] when the switch is
    on. *)
Theorem missing_preview_sends_empty_screenshot
    {Body : Type} (png : Body -> string)
    (iframeElement : option (HTMLIFrameElement Body)) (s : Session) :
  previewBody iframeElement = None ->
  takeScreenshot png iframeElement = ""
  /\ (exists p : JsObj,
         issued (instructionGenerate (takeScreenshot png iframeElement)) s
         = [(GenerateInstruction, p)]
         /\ p !! "resultImage" = Some (VStr ""))
  /\ (exists p : JsObj,
         issued (doUpdate (takeScreenshot png iframeElement)) s
         = [(GenerateCode, p)]
         /\ p !! "resultImage"
            = (if shouldIncludeResultImage s then Some (VStr "") else None)).
Proof.
  intros Hnone.
  assert (E : takeScreenshot png iframeElement = "").
  { unfold takeScreenshot. rewrite Hnone. reflexivity. }
  rewrite E. split; [reflexivity|]. split.
  - eexists. split; [apply issued_instructionGenerate|]. param_key.
  - eexists. split; [apply issued_doUpdate|].
    destruct (shouldIncludeResultImage s); param_key.
Qed.

(** *** The terms-of-service dialog *)

(** X9.  After [handleTermDialogOpenChange open] the page gives the
    dialog [open] back as its [open] property; the last call decides; the
    other settings and the other hooks are as before; and the next request
    carries [isTermOfServiceAccepted] as the negation of [open]. *)
Theorem terms_dialog_round_trip (open : bool) (s : Session) :
  let s' := handleTermDialogOpenChange open s in
  termsDialogOpen s' = open
  /\ (forall open0 : bool,
         handleTermDialogOpenChange open (handleTermDialogOpenChange open0 s) = s')
  /\ setSettings (settings s) s' = s
  /\ openAiApiKey (settings s') = openAiApiKey (settings s)
  /\ screenshotOneApiKey (settings s') = screenshotOneApiKey (settings s)
  /\ isImageGenerationEnabled (settings s') = isImageGenerationEnabled (settings s)
  /\ editorTheme (settings s') = editorTheme (settings s)
  /\ (forall (screenshot : string),
         exists p : JsObj,
           issued (instructionGenerate screenshot) s' = [(GenerateInstruction, p)]
           /\ p !! "isTermOfServiceAccepted" = Some (VBool (negb open))).
Proof.
  intros s'. repeat split.
  - unfold s', termsDialogOpen. cbn. apply negb_involutive.
  - destruct s; reflexivity.
  - intros screenshot. eexists. split; [apply issued_instructionGenerate|].
    eapply lookup_weaken; [|apply spread_settings_subseteq].
    unfold settingsObj.
    repeat (rewrite lookup_insert_ne by discriminate).
    apply lookup_insert_eq.
Qed.

Section StopProperties.
Context `{Imports}.

(** X10.  [stop] never leaves an open socket and sends nothing.  With no
    socket ([wsRef] null) it only sets the phase; an open socket is left
    closing with [USER_CLOSE_WEB_SOCKET_CODE]; a socket that has already
    closed keeps its state and its own close code. *)
Theorem stop_leaves_no_open_socket (s : Session) :
  handle_open (stop s) = false
  /\ appState (stop s) = CODE_READY
  /\ issued stop s = []
  /\ (wsRef s = None -> stop s = setAppState CODE_READY s)
  /\ (handle_open s = true ->
      exists ep : Endpoint,
        wsRef (stop s)
        = Some {| endpoint := ep; readyState := CLOSING;
                  closeCode := Some USER_CLOSE_WEB_SOCKET_CODE |})
  /\ (forall ws : WebSocket,
         wsRef s = Some ws -> readyState ws = CLOSED -> wsRef (stop s) = Some ws).
Proof.
  rewrite stop_fields. unfold handle_open. cbn.
  split; [|split; [reflexivity|split; [|split; [|split]]]].
  - destruct (wsRef s) as [[ep [] cc]|]; reflexivity.
  - apply issued_none. reflexivity.
  - intros Hnone. rewrite Hnone. destruct s; cbn in *; subst; reflexivity.
  - destruct (wsRef s) as [[ep [] cc]|]; try discriminate.
    intros _. exists ep. reflexivity.
  - intros [ep rs cc] -> Hrs. cbn in Hrs. subst rs. reflexivity.
Qed.

End StopProperties.

Section RunProperties.
Context `{Imports}.

(** *** What a stream never touches *)

Lemma deliver_frame (ev : StreamEvent) (s : Session) (ws : WebSocket) :
  wsRef s = Some ws ->
  exists ws' : WebSocket,
    wsRef (deliver ev s) = Some ws'
    /\ endpoint ws' = endpoint ws
    /\ referenceImages (deliver ev s) = referenceImages s
    /\ history (deliver ev s) = history s
    /\ settings (deliver ev s) = settings s
    /\ shouldIncludeResultImage (deliver ev s) = shouldIncludeResultImage s
    /\ outbox (deliver ev s) = outbox s
    /\ match endpoint ws with
       | GenerateCode =>
           updateInstruction (deliver ev s) = updateInstruction s
           /\ mistakesNum (deliver ev s) = mistakesNum s
       | GenerateInstruction => generatedCode (deliver ev s) = generatedCode s
       end.
Proof.
  intros Hws. unfold deliver. rewrite Hws.
  destruct ws as [ep rs cc]. destruct rs, ep, ev; cbn;
    (eexists; split; [first [exact Hws | reflexivity] | repeat split]).
Qed.

(** X4.  Whatever arrives on a socket, in whatever order, the reference
    images, the history, the settings, the switch and the requests sent are
    untouched; on a code socket the instruction and the mistake count are
    untouched too, and on an instruction socket the code. *)
Theorem stream_keeps_other_hooks (evs : list StreamEvent) :
  forall (s : Session) (ws : WebSocket),
    wsRef s = Some ws ->
    let s' := exec (map Stream evs) s in
    referenceImages s' = referenceImages s
    /\ history s' = history s
    /\ settings s' = settings s
    /\ shouldIncludeResultImage s' = shouldIncludeResultImage s
    /\ outbox s' = outbox s
    /\ match endpoint ws with
       | GenerateCode =>
           updateInstruction s' = updateInstruction s
           /\ mistakesNum s' = mistakesNum s
       | GenerateInstruction => generatedCode s' = generatedCode s
       end.
Proof.
  induction evs as [|ev evs IH]; intros s ws Hws.
  - cbn. destruct (endpoint ws); repeat split.
  - cbn [map]. cbv zeta. rewrite exec_cons. cbn [run].
    destruct (deliver_frame ev s ws Hws)
      as (ws' & Hws' & Hep & Hri & Hh & Hst & Hsw & Hob & Hch).
    specialize (IH (deliver ev s) ws' Hws'). cbv zeta in IH.
    destruct IH as (IHri & IHh & IHst & IHsw & IHob & IHch).
    rewrite Hep in IHch.
    rewrite IHri, IHh, IHst, IHsw, IHob.
    repeat split; try assumption.
    destruct (endpoint ws).
    + destruct IHch as [-> ->]. exact Hch.
    + rewrite IHch. exact Hch.
Qed.

(** *** The history over several turns *)

Lemma flatten_spec_ledger (n : nat) :
  forall h : list string,
    length h = (2 * n)%nat -> flatten_ledger (spec_ledger h) = h.
Proof.
  induction n as [|n IH]; intros h Hlen.
  - destruct h; [reflexivity | discriminate].
  - destruct h as [|x [|y h]]; cbn in Hlen; try lia.
    cbn. do 2 f_equal. apply IH. lia.
Qed.

(** X11.  Two updates in a row.  After an update, the events of its
    generation, [Done], an instruction typed into the box and a second
    update, the history is the former history followed by the code and the
    instruction of before the first update and then by the code that the
    first update streamed and the instruction typed; the second request
    carries exactly this array as its [history]. *)
Theorem successive_updates_history
    (s : Session) (screenshot1 screenshot2 : string)
    (evs : list StreamEvent) (typed : string) :
  Forall (fun ev => terminal ev = false) evs ->
  let s1 := run (User (OpUpdate screenshot1)) s in
  let s2 := exec (map Stream evs) s1 in
  let s3 := run (Stream Done) s2 in
  let s4 := run (EditInstruction typed) s3 in
  let s5 := run (User (OpUpdate screenshot2)) s4 in
  let turns := history s ++ [generatedCode s; updateInstruction s;
                             streamedText "" evs; typed] in
  appState s3 = CODE_READY
  /\ history s5 = turns
  /\ (exists p : JsObj,
         issued (doUpdate screenshot2) s4 = [(GenerateCode, p)]
         /\ p !! "history" = Some (VArr turns)).
Proof.
  intros Hnt s1 s2 s3 s4 s5 turns.
  assert (Hws1 : wsRef s1 = Some {| endpoint := GenerateCode; readyState := OPEN;
                                    closeCode := None |}).
  { unfold s1. cbn [run invoke]. rewrite doUpdate_fields. reflexivity. }
  assert (Hc1 : generatedCode s1 = "").
  { unfold s1. cbn [run invoke]. rewrite doUpdate_fields. reflexivity. }
  assert (Hh1 : history s1 = history s ++ [generatedCode s; updateInstruction s]).
  { unfold s1. cbn [run invoke]. apply history_doUpdate. }
  assert (E2 : s2 = setExecutionConsole (executionConsole s1 ++ logLines evs)
                      (setGeneratedCode (streamedText "" evs) s1)).
  { unfold s2. rewrite (exec_stream_code evs s1 None Hnt Hws1), Hc1. reflexivity. }
  assert (E3 : s3 = setWsRef (Some {| endpoint := GenerateCode; readyState := CLOSED;
                                      closeCode := None |})
                      (setAppState CODE_READY s2)).
  { unfold s3. cbn [run]. unfold deliver.
    assert (Hws2 : wsRef s2 = wsRef s1) by (rewrite E2; reflexivity).
    rewrite Hws2, Hws1. reflexivity. }
  assert (E4h : history s4 = history s ++ [generatedCode s; updateInstruction s]).
  { unfold s4. rewrite E3, E2. exact Hh1. }
  assert (E4c : generatedCode s4 = streamedText "" evs).
  { unfold s4. rewrite E3, E2. reflexivity. }
  assert (E4i : updateInstruction s4 = typed).
  { unfold s4. reflexivity. }
  assert (E5 : history (doUpdate screenshot2 s4) = turns).
  { rewrite history_doUpdate, E4h, E4c, E4i. unfold turns.
    rewrite <- app_assoc. reflexivity. }
  split; [rewrite E3; reflexivity|].
  split; [exact E5|].
  eexists. split; [apply issued_doUpdate|].
  rewrite <- E5, history_doUpdate.
  destruct (shouldIncludeResultImage s4); param_key.
Qed.

(** X12.  In every run the [history] array holds whole pairs: its length
    is even, twice the number of entries of the ledger read off it, and
    writing the entries of that ledger back one after the other gives the
    array again. *)
Theorem history_holds_whole_pairs (st : Settings) (tr : list Action) :
  let h := history (reached st tr) in
  Nat.Even (length h)
  /\ length h = (2 * length (spec_ledger h))%nat
  /\ flatten_ledger (spec_ledger h) = h.
Proof.
  intros h. destruct (well_formed_reached st tr) as [[n Hn] _]. fold h in Hn.
  split; [exists n; exact Hn|].
  split; [rewrite (spec_ledger_length n h Hn); exact Hn|].
  apply (flatten_spec_ledger n). exact Hn.
Qed.

(** *** Which action sends, and which hook an action can change *)

(** X13.  An action sends one request when it is [doCreate] with at least
    one image, [doUpdate] or [instructionGenerate], and none otherwise: no
    request leaves on [stop], on [reset], on an edit, on [doCreate] without
    image or on a stream event; and no action removes or alters a request
    already sent. *)
Theorem requests_sent_by_action (a : Action) (s : Session) :
  outbox (run a s) = outbox s ++ issued (run a) s
  /\ length (issued (run a) s) = (if sends a then 1 else 0)%nat.
Proof.
  assert (Hr : exists r : list Request,
             outbox (run a s) = outbox s ++ r
             /\ length r = (if sends a then 1 else 0)%nat).
  { destruct a as [[images|shot|shot| |]|text|b|code|st|ev]; cbn [run invoke sends].
    - destruct images as [|image more].
      + exists []. rewrite app_nil_r. split; reflexivity.
      + eexists [_]. split; reflexivity.
    - eexists. split; [apply outbox_doUpdate | reflexivity].
    - eexists [_]. split; reflexivity.
    - exists []. rewrite app_nil_r. split; reflexivity.
    - exists []. rewrite app_nil_r. split; reflexivity.
    - exists []. rewrite app_nil_r. split; reflexivity.
    - exists []. rewrite app_nil_r. split; reflexivity.
    - exists []. rewrite app_nil_r. split; reflexivity.
    - exists []. rewrite app_nil_r. split; reflexivity.
    - exists []. rewrite app_nil_r. split; [|reflexivity].
      unfold deliver. destruct (wsRef s) as [[ep rs cc]|]; [|reflexivity].
      destruct rs, ep, ev; reflexivity. }
  destruct Hr as (r & Hr & Hlen).
  assert (Hi : issued (run a) s = r).
  { unfold issued. rewrite Hr. apply drop_app_length. }
  rewrite Hi. split; assumption.
Qed.

(** X14.  A hook changes only under the actions that hold a call of its
    setter.  In particular [stop], [doCreate] and [instructionGenerate]
    leave the code as it is, [reset] and [doUpdate] leave the mistake count
    as it is, no handler and no stream event changes the settings or the
    switch, and only [doUpdate] and [reset] change the history. *)
Theorem hook_changes_only_under_its_writers (a : Action) (h : Hook) (s : Session) :
  writes a h = false -> hookEq h s (run a s).
Proof.
  destruct a as [[images|shot|shot| |]|text|b|code|st|ev].
  - destruct h; cbn [writes]; try discriminate; intros _;
      destruct images; reflexivity.
  - destruct h; cbn [writes]; try discriminate; intros _;
      cbn [run invoke hookEq]; rewrite doUpdate_fields; reflexivity.
  - destruct h; cbn [writes]; try discriminate; intros _; reflexivity.
  - destruct h; cbn [writes]; try discriminate; intros _; reflexivity.
  - destruct h; cbn [writes]; try discriminate; intros _; reflexivity.
  - destruct h; cbn [writes]; try discriminate; intros _; reflexivity.
  - destruct h; cbn [writes]; try discriminate; intros _; reflexivity.
  - destruct h; cbn [writes]; try discriminate; intros _; reflexivity.
  - destruct h; cbn [writes]; try discriminate; intros _; reflexivity.
  - destruct ev, h; cbn [writes]; try discriminate; intros _; cbn;
      unfold deliver; (destruct (wsRef s) as [[ep rs cc]|]; [|reflexivity]);
      destruct rs, ep; reflexivity.
Qed.

(** *** The page while an instruction is generated *)

(** X16.  While the phase is [INSTRUCTION_GENERATING] the page offers no
    operation: whatever operations are requested through it, one after the
    other, the session stays as it is. *)
Theorem nothing_offered_while_refining (ops : list Op) (s : Session) :
  appState s = INSTRUCTION_GENERATING ->
  foldl (fun acc op => click op acc) s ops = s.
Proof.
  intros Hp. induction ops as [|op ops IH]; [reflexivity|].
  cbn [foldl].
  assert (E : click op s = s).
  { unfold click. rewrite Hp. destruct op; reflexivity. }
  rewrite E. exact IH.
Qed.

End RunProperties.

(** *** An update whose screenshot is awaited *)

(** X15.  [doUpdate] works on the render of the click.  Run at once it is
    [doUpdate] as above.  When other setters have run while the screenshot
    was awaited, the history it stores and sends is still the history of
    the click followed by the code and the instruction of the click, with
    the settings of the click; the code and the box are emptied.  Hence two
    clicks on Update in one render send two requests and leave one new
    entry in the history. *)
Theorem awaited_update_uses_click_render
    (render now : Session) (screenshot screenshot2 : string) :
  let turns := history render
               ++ [generatedCode render; updateInstruction render] in
  doUpdateFrom render screenshot render = doUpdate screenshot render
  /\ history (doUpdateFrom render screenshot now) = turns
  /\ generatedCode (doUpdateFrom render screenshot now) = ""
  /\ updateInstruction (doUpdateFrom render screenshot now) = ""
  /\ (exists p : JsObj,
         issued (doUpdateFrom render screenshot) now = [(GenerateCode, p)]
         /\ p !! "history" = Some (VArr turns)
         /\ settingsObj (settings render) ⊆ p)
  /\ history (doUpdateFrom render screenshot2
                (doUpdateFrom render screenshot now)) = turns
  /\ length (issued (fun s => doUpdateFrom render screenshot2
                                (doUpdateFrom render screenshot s)) now) = 2%nat.
Proof.
  intros turns. unfold doUpdateFrom, doUpdate, doGenerateCode, doGenerateCodeFrom.
  destruct (shouldIncludeResultImage render); cbn.
  - repeat split.
    + eexists. split; [apply issued_send; reflexivity|].
      split; [param_key | apply spread_settings_subseteq].
    + unfold issued. cbn. rewrite <- app_assoc, drop_app_length. reflexivity.
  - repeat split.
    + eexists. split; [apply issued_send; reflexivity|].
      split; [param_key | apply spread_settings_subseteq].
    + unfold issued. cbn. rewrite <- app_assoc, drop_app_length. reflexivity.
Qed.

(** ** The statements at concrete sessions *)

#[local] Existing Instance exampleImports.

(** C1, at the failing input.  In the session left by a generation and a
    generated instruction, the instruction box holds the instruction and
    the mistake count is 2: [reset] returns the phase, the code, the
    images, the console and the history to their initial values, and leaves
    the instruction and the mistake count as they were. *)
Theorem C1_reset_leaves_instruction_and_mistakes :
  let s := refinedSession in
  (appState s = CODE_READY
   /\ updateInstruction s = "header is red; title is left;"
   /\ mistakesNum s = 2)
  /\ appState (reset s) = INITIAL
  /\ generatedCode (reset s) = ""
  /\ referenceImages (reset s) = []
  /\ executionConsole (reset s) = []
  /\ history (reset s) = []
  /\ updateInstruction (reset s) = "header is red; title is left;"
  /\ mistakesNum (reset s) = 2
  /\ updateInstruction (reset s) <> updateInstruction (initialSession defaultSettings)
  /\ mistakesNum (reset s) <> mistakesNum (initialSession defaultSettings).
Proof.
  assert (Ei : updateInstruction refinedSession = "header is red; title is left;")
    by reflexivity.
  assert (Em : mistakesNum refinedSession = 2) by reflexivity.
  cbv zeta. rewrite reset_fields. cbn [appState generatedCode referenceImages
    executionConsole history updateInstruction mistakesNum].
  rewrite Ei, Em.
  repeat split; discriminate.
Qed.

Lemma C2_update_appends_one_entry_witness :
  let tr := [User (OpCreate ["img1"]); Stream (Token "<html>A</html>"); Stream Done] in
  let s := reached defaultSettings tr in
  appState s = CODE_READY
  /\ history (doUpdate "" s) = ["<html>A</html>"; ""]
  /\ spec_ledger (history (doUpdate "" s)) = [("<html>A</html>", "")]
  /\ length (spec_ledger (history (doUpdate "" s))) = 1%nat
  /\ generatedCode (doUpdate "" s) = ""
  /\ updateInstruction (doUpdate "" s) = "".
Proof.
  split; [reflexivity|].
  apply (C2_update_appends_one_entry defaultSettings
           [User (OpCreate ["img1"]); Stream (Token "<html>A</html>"); Stream Done] "").
  reflexivity.
Defined.

Lemma C3_illegal_click_is_noop_witness :
  spec_legal (appState (initialSession defaultSettings)) OpStop = false
  /\ click OpStop (initialSession defaultSettings) = initialSession defaultSettings.
Proof.
  split; [reflexivity|].
  apply (C3_illegal_click_is_noop (initialSession defaultSettings) OpStop).
  reflexivity.
Defined.

(** C3, as stated, fails: [stop] is not legal in [INITIAL], and invoked
    there it moves the session to [CODE_READY]; [update] is not legal in
    [INITIAL], and invoked there it moves the session to [CODING]. *)
Lemma C3_counterexample :
  let s := initialSession defaultSettings in
  spec_legal (appState s) OpStop = false
  /\ appState (invoke OpStop s) = CODE_READY
  /\ invoke OpStop s <> s
  /\ spec_legal (appState s) (OpUpdate "") = false
  /\ appState (invoke (OpUpdate "") s) = CODING
  /\ invoke (OpUpdate "") s <> s.
Proof.
  cbn. repeat split; intros E; apply (f_equal appState) in E; discriminate E.
Qed.


(** C5, as stated, fails: [update] is not [reset], and it discards the
    line that the console held. *)
Lemma C5_counterexample :
  let a := User (OpUpdate "") in
  a <> User OpReset
  /\ executionConsole readySession = ["Generating code..."]
  /\ executionConsole (run a readySession) = []
  /\ ~ executionConsole readySession `prefix_of` executionConsole (run a readySession).
Proof.
  assert (E : executionConsole (run (User (OpUpdate "")) readySession) = [])
    by reflexivity.
  split; [discriminate|]. split; [reflexivity|]. split; [exact E|].
  rewrite E. intros [k Hk]. discriminate Hk.
Qed.

Lemma C7_create_without_images_is_noop_witness :
  let tr := [User (OpCreate ["img1"]); Stream (Token "<html>"); Stream Done;
             User OpReset] in
  let s := reached defaultSettings tr in
  appState s = INITIAL
  /\ doCreate [] s = s
  /\ appState (doCreate [] s) = INITIAL
  /\ issued (doCreate []) s = [].
Proof.
  split; [reflexivity|].
  apply (C7_create_without_images_is_noop defaultSettings
           [User (OpCreate ["img1"]); Stream (Token "<html>"); Stream Done;
            User OpReset]).
  reflexivity.
Defined.

Lemma C8_tokens_concatenate_done_sets_phase_witness :
  let s := initialSession defaultSettings in
  let s1 := run (User (OpCreate ["img1"])) s in
  let s2 := run (Stream (Token "<ht")) s1 in
  let s3 := run (Stream (Token "ml>")) s2 in
  let s4 := run (Stream Done) s3 in
  appState s = INITIAL
  /\ generatedCode s = ""
  /\ appState s1 = CODING
  /\ generatedCode s1 = ""
  /\ generatedCode s3 = "<html>"
  /\ appState s4 = CODE_READY
  /\ generatedCode s4 = "<html>".
Proof.
  split; [reflexivity|]. split; [reflexivity|].
  apply (C8_tokens_concatenate_done_sets_phase (initialSession defaultSettings));
    reflexivity.
Defined.

Lemma C9_stop_keeps_partial_buffer_witness :
  let s := reached defaultSettings
             [User (OpCreate ["img1"]); Stream (Token "<htm")] in
  appState s = CODING
  /\ appState (stop s) = CODE_READY
  /\ generatedCode (stop s) = "<htm"
  /\ history (stop s) = []
  /\ referenceImages (stop s) = ["img1"]
  /\ executionConsole (stop s) = []
  /\ updateInstruction (stop s) = "".
Proof.
  split; [reflexivity|].
  apply (C9_stop_keeps_partial_buffer
           (reached defaultSettings
              [User (OpCreate ["img1"]); Stream (Token "<htm")])).
  reflexivity.
Defined.

Lemma C5_console_append_only_within_generation_witness :
  let s := doCreate ["img1"] (initialSession defaultSettings) in
  restarts_console (Stream (Log "Generating code...")) = false
  /\ handle_open s = true
  /\ executionConsole s `prefix_of`
       executionConsole (run (Stream (Log "Generating code...")) s)
  /\ executionConsole (run (Stream (Log "Generating code...")) s)
     = ["Generating code..."].
Proof.
  split; [reflexivity|]. split; [reflexivity|].
  destruct (C5_console_append_only_within_generation
              (doCreate ["img1"] (initialSession defaultSettings)))
    as (Hkeep & Hlog & _).
  split; [apply Hkeep; reflexivity | apply Hlog; reflexivity].
Defined.

(** *** The further properties at concrete sessions *)

Lemma instruction_run_sets_mistakes_witness :
  let evs := [Token "header is red;"; Log "comparing"; Token " title is left;"] in
  let s1 := instructionGenerate "shot" readySession in
  let s2 := exec (map Stream evs) s1 in
  let s3 := run (Stream Done) s2 in
  Forall (fun ev => terminal ev = false) evs
  /\ mistakesNum s2 = 0
  /\ appState s2 = INSTRUCTION_GENERATING
  /\ updateInstruction s3 = "header is red; title is left;"
  /\ mistakesNum s3 = 2
  /\ appState s3 = CODE_READY
  /\ generatedCode s3 = "<html>A</html>"
  /\ history s3 = [].
Proof.
  split; [repeat constructor|].
  exact (instruction_run_sets_mistakes readySession "shot"
           [Token "header is red;"; Log "comparing"; Token " title is left;"]
           ltac:(repeat constructor)).
Defined.

Lemma replace_supersedes_tokens_witness :
  let s := doCreate ["img1"] (initialSession defaultSettings) in
  let before := [Token "<ht"; Log "Generating code..."] in
  let s' := exec (map Stream (before ++ Replace "<html>" :: map Token ["<body>"; "</body>"])) s in
  Forall (fun ev => terminal ev = false) before
  /\ wsRef s = Some {| endpoint := GenerateCode; readyState := OPEN; closeCode := None |}
  /\ generatedCode s' = "<html><body></body>"
  /\ updateInstruction s' = updateInstruction s.
Proof.
  split; [repeat constructor|]. split; [reflexivity|].
  exact (replace_supersedes_tokens
           (doCreate ["img1"] (initialSession defaultSettings)) None GenerateCode
           [Token "<ht"; Log "Generating code..."] "<html>" ["<body>"; "</body>"]
           ltac:(repeat constructor) eq_refl).
Defined.

Lemma console_collects_log_lines_witness :
  let s := doCreate ["img1"] (initialSession defaultSettings) in
  let evs := [Log "Generating code..."; Token "<html>"; Log "Generating images..."] in
  Forall (fun ev => terminal ev = false) evs
  /\ wsRef s = Some {| endpoint := GenerateCode; readyState := OPEN; closeCode := None |}
  /\ executionConsole (exec (map Stream evs) s)
     = ["Generating code..."; "Generating images..."]
  /\ statusLine (exec (map Stream evs) s) = Some "Generating images...".
Proof.
  split; [repeat constructor|]. split; [reflexivity|].
  exact (console_collects_log_lines
           (doCreate ["img1"] (initialSession defaultSettings)) None GenerateCode
           [Log "Generating code..."; Token "<html>"; Log "Generating images..."]
           ltac:(repeat constructor) eq_refl).
Defined.

Lemma stream_keeps_other_hooks_witness :
  let s := run (EditInstruction "make the title bold") readySession in
  let s0 := doUpdate "" s in
  let ws := {| endpoint := GenerateCode; readyState := OPEN; closeCode := None |} in
  let s' := exec (map Stream [Token "<html>"; Replace "<p>"; Log "x"; Done; Token "late"]) s0 in
  wsRef s0 = Some ws
  /\ referenceImages s' = ["img1"]
  /\ history s' = ["<html>A</html>"; "make the title bold"]
  /\ settings s' = defaultSettings
  /\ shouldIncludeResultImage s' = false
  /\ outbox s' = outbox s0
  /\ updateInstruction s' = ""
  /\ mistakesNum s' = 0.
Proof.
  split; [reflexivity|].
  exact (stream_keeps_other_hooks
           [Token "<html>"; Replace "<p>"; Log "x"; Done; Token "late"]
           (doUpdate "" (run (EditInstruction "make the title bold") readySession))
           {| endpoint := GenerateCode; readyState := OPEN; closeCode := None |}
           eq_refl).
Defined.

Lemma missing_preview_sends_empty_screenshot_witness :
  let png := fun _ : unit => "data:image/png;base64,iVBORw0KGgo=" in
  let iframeElement := Some {| contentWindow := @None (Window unit) |} in
  previewBody iframeElement = None
  /\ takeScreenshot png iframeElement = ""
  /\ (exists p : JsObj,
         issued (instructionGenerate (takeScreenshot png iframeElement)) readySession
         = [(GenerateInstruction, p)]
         /\ p !! "resultImage" = Some (VStr ""))
  /\ (exists p : JsObj,
         issued (doUpdate (takeScreenshot png iframeElement)) readySession
         = [(GenerateCode, p)]
         /\ p !! "resultImage" = None).
Proof.
  split; [reflexivity|].
  exact (missing_preview_sends_empty_screenshot
           (fun _ : unit => "data:image/png;base64,iVBORw0KGgo=")
           (Some {| contentWindow := @None (Window unit) |})
           readySession eq_refl).
Defined.

Lemma successive_updates_history_witness :
  let evs := [Log "Generating code..."; Token "<html>"; Token "B</html>"] in
  let s1 := run (User (OpUpdate "")) readySession in
  let s2 := exec (map Stream evs) s1 in
  let s3 := run (Stream Done) s2 in
  let s4 := run (EditInstruction "make it blue") s3 in
  let s5 := run (User (OpUpdate "")) s4 in
  let turns := ["<html>A</html>"; ""; "<html>B</html>"; "make it blue"] in
  Forall (fun ev => terminal ev = false) evs
  /\ appState s3 = CODE_READY
  /\ history s5 = turns
  /\ (exists p : JsObj,
         issued (doUpdate "") s4 = [(GenerateCode, p)]
         /\ p !! "history" = Some (VArr turns)).
Proof.
  split; [repeat constructor|].
  exact (successive_updates_history readySession "" ""
           [Log "Generating code..."; Token "<html>"; Token "B</html>"]
           "make it blue" ltac:(repeat constructor)).
Defined.

Lemma hook_changes_only_under_its_writers_witness :
  let s := reached defaultSettings
             [User (OpCreate ["img1"]); Stream (Token "<htm")] in
  writes (User (OpGenerateInstruction "shot")) HGeneratedCode = false
  /\ generatedCode s = "<htm"
  /\ hookEq HGeneratedCode s (run (User (OpGenerateInstruction "shot")) s).
Proof.
  split; [reflexivity|]. split; [reflexivity|].
  exact (hook_changes_only_under_its_writers
           (User (OpGenerateInstruction "shot")) HGeneratedCode
           (reached defaultSettings
              [User (OpCreate ["img1"]); Stream (Token "<htm")])
           eq_refl).
Defined.

Lemma nothing_offered_while_refining_witness :
  let s := instructionGenerate "shot" readySession in
  let ops := [OpStop; OpReset; OpUpdate ""; OpGenerateInstruction "";
              OpCreate ["img2"]] in
  appState s = INSTRUCTION_GENERATING
  /\ foldl (fun acc op => click op acc) s ops = s.
Proof.
  split; [reflexivity|].
  exact (nothing_offered_while_refining
           [OpStop; OpReset; OpUpdate ""; OpGenerateInstruction "";
            OpCreate ["img2"]]
           (instructionGenerate "shot" readySession) eq_refl).
Defined.
